(** * Inventory aging report: classification, aggregation and drill-down

    A shallow embedding of [streamlit_app.py].  The script buckets every SKU
    of an inventory table by the number of days since its last invoice
    ([pd.cut]), counts the SKUs per bucket for a bar chart ([value_counts]
    followed by a sort on the ordered categories) and, when a bar is selected,
    renders the detail of that bucket: three metrics, the rows of the bucket
    and a conditional insight message.  The table itself comes from
    [generate_data], modelled for any outcome of its random draws.

    The table is a list of rows; a categorical cell is [option string]
    ([None] is pandas' NaN); the widgets that the script hands to Streamlit
    are collected in a list, in the order of the calls. *)

From Stdlib Require Import String Ascii ZArith Bool Lia List.
From Stdlib Require Import Permutation Sorted.
From Stdlib Require Import Floats.
From Stdlib Require Import Decimal DecimalNat DecimalString.
Import ListNotations.

#[local] Set Warnings "-inexact-float".

Open Scope string_scope.
Open Scope Z_scope.

(* ================================================================== *)
(** ** Bin edges and labels (lines 32-33) *)

(** An edge of [bins]: a finite number of days or [float('inf')]. *)
Inductive edge : Type :=
| Fin (z : Z)
| Inf.

Definition bins : list edge := [Fin 0; Fin 90; Fin 180; Fin 365; Fin 730; Inf].

Definition labels : list string :=
  [ "0-3 Meses (Activo)";
    "3-6 Meses (Monitoreo)";
    "6-12 Meses (Riesgo)";
    "12-24 Meses (Obsoleto)";
    "+24 Meses (Crítico)" ].

(** [e <= x] and [e == x] for an edge and an integer number of days. *)
Definition edge_leb (e : edge) (x : Z) : bool :=
  match e with
  | Fin z => z <=? x
  | Inf => false
  end.

Definition edge_eqb (e : edge) (x : Z) : bool :=
  match e with
  | Fin z => z =? x
  | Inf => false
  end.

(* ================================================================== *)
(** ** [pd.cut] with [right=False] (lines 35-41) *)

(** [bins.searchsorted(x, side="right")] on increasing edges: the number of
    leading edges that are [<= x]. *)
Fixpoint searchsorted_right (bs : list edge) (x : Z) : nat :=
  match bs with
  | [] => 0%nat
  | b :: bs' => if edge_leb b x then S (searchsorted_right bs' x) else 0%nat
  end.

(** The bin index of [x]; [include_lowest] sets it to 1 where [x] is the
    first edge.  An index of 0 (below the first edge) or [len(bins)] (not
    below the last edge) is masked as NaN; any other index [i] selects
    [labels[i-1]]. *)
Definition cut (x : Z) (bs : list edge) (ls : list string) : option string :=
  let ids := searchsorted_right bs x in
  let ids := match bs with
             | b0 :: _ => if edge_eqb b0 x then 1%nat else ids
             | [] => ids
             end in
  if (Nat.eqb ids (length bs) || Nat.eqb ids 0)%bool then None
  else nth_error ls (ids - 1).

(** The classifier: the value of column [Categoria_Antiguedad] for a row
    whose [Dias_Ultima_Factura] is [d]. *)
Definition classify (d : Z) : option string := cut d bins labels.

(** The day range of bin [i] is [[bins[i], bins[i+1])]. *)
Definition in_bin (d : Z) (i : nat) : Prop :=
  exists lo hi,
    nth_error bins i = Some lo /\ nth_error bins (S i) = Some hi /\
    edge_leb lo d = true /\ edge_leb hi d = false.

(* ================================================================== *)
(** ** The inventory table (lines 13-27) *)

(** One row of the frame returned by [generate_data].  The integer columns
    are [int64], the money columns [float64]; the purchase date is kept as a
    day number.  [Utilidad_Unitaria] and [Margen_Utilidad_Porcentaje] are
    stored columns of that frame: the report only reads them. *)
Record Sku : Type := mkSku {
  SKU : string;
  Dias_Ultima_Factura : Z;
  Existencia_Actual : Z;
  Costo_Unitario : float;
  Precio_Venta_Unitario : float;
  Cliente_Mas_Reciente : string;
  Fecha_Ultima_Compra : Z;
  Utilidad_Unitaria : float;
  Margen_Utilidad_Porcentaje : float
}.

(** Column [Categoria_Antiguedad], added by line 35. *)
Definition Categoria_Antiguedad (r : Sku) : option string :=
  cut (Dias_Ultima_Factura r) bins labels.

(* ================================================================== *)
(** ** Sorting *)

(** [sort_values] and the sort inside [value_counts] are modelled by a stable
    insertion sort.  numpy's default sort does not promise an order among
    equal keys; nothing below depends on that order apart from the examples. *)
Section Sorting.
Context {A : Type}.
Variable leb : A -> A -> bool.

Fixpoint insert (a : A) (l : list A) : list A :=
  match l with
  | [] => [a]
  | b :: l' => if leb a b then a :: l else b :: insert a l'
  end.

Fixpoint sort (l : list A) : list A :=
  match l with
  | [] => []
  | a :: l' => insert a (sort l')
  end.
End Sorting.

(* ================================================================== *)
(** ** The counts behind the bar chart (lines 44-47) *)

(** A row of [df_conteo]: ([Categoria_Antiguedad], [Cantidad_SKUs]). *)
Definition CountRow : Type := (string * nat)%type.

Definition cell_is (l : string) (c : option string) : bool :=
  match c with
  | Some l' => String.eqb l' l
  | None => false
  end.

(** The number of cells of a categorical column that hold [l]. *)
Definition bincount (col : list (option string)) (l : string) : nat :=
  List.length (filter (cell_is l) col).

(** [Series.value_counts()] on a categorical column whose categories are
    [labels]: NaN cells are dropped, every category gets a row, its count
    being 0 when no cell holds it, and the rows are sorted by count,
    largest first. *)
Definition value_counts (col : list (option string)) : list CountRow :=
  sort (fun a b => Nat.leb (snd b) (snd a))
       (map (fun l => (l, bincount col l)) labels).

(** The code of a value in [pd.Categorical(..., categories=ls)]: its position
    in [ls], or NaN ([None]) when it is not a category. *)
Fixpoint code (ls : list string) (l : string) : option nat :=
  match ls with
  | [] => None
  | l' :: ls' => if String.eqb l' l then Some 0%nat
                 else option_map S (code ls' l)
  end.

(** Ascending order on codes, NaN last. *)
Definition code_leb (a b : option nat) : bool :=
  match a, b with
  | Some i, Some j => Nat.leb i j
  | Some _, None => true
  | None, Some _ => false
  | None, None => true
  end.

Definition by_category (a b : CountRow) : bool :=
  code_leb (code labels (fst a)) (code labels (fst b)).

(** [df_conteo] (the spec's [aggregate]): the value counts of column
    [Categoria_Antiguedad], re-sorted on the ordered categorical. *)
Definition df_conteo (df_inventario : list Sku) : list CountRow :=
  sort by_category (value_counts (map Categoria_Antiguedad df_inventario)).

(** The rows in the order of [labels], whatever their counts. *)
Definition rows_in_label_order (col : list (option string)) : list CountRow :=
  map (fun l => (l, bincount col l)) labels.

Definition total_count (rows : list CountRow) : nat :=
  fold_right (fun row acc => (snd row + acc)%nat) 0%nat rows.

(* ================================================================== *)
(** ** Number formatting (lines 103-104) *)

(** Python's [format(x, ".2f")] and [format(x, ",.2f")] on a [float]: the
    exact binary value is rounded to hundredths, ties to even, and printed
    with two decimals, the integer part in groups of three digits when the
    comma flag is given. *)

Definition digit (n : Z) : string :=
  String (ascii_of_nat (48 + Z.to_nat n)) EmptyString.

Fixpoint digits_fuel (fuel : nat) (n : Z) : string :=
  match fuel with
  | O => digit n
  | S fuel' =>
      if n <? 10 then digit n
      else digits_fuel fuel' (n / 10) ++ digit (n mod 10)
  end.

(** [str(n)] for [0 <= n]. *)
Definition digits (n : Z) : string := digits_fuel (Z.to_nat (Z.log2 n)) n.

Definition pad2 (n : Z) : string := digit (n / 10) ++ digit (n mod 10).

Definition pad3 (n : Z) : string :=
  digit (n / 100) ++ digit (n / 10 mod 10) ++ digit (n mod 10).

Fixpoint grouped_fuel (fuel : nat) (n : Z) : string :=
  match fuel with
  | O => digits n
  | S fuel' =>
      if n <? 1000 then digits n
      else grouped_fuel fuel' (n / 1000) ++ "," ++ pad3 (n mod 1000)
  end.

(** [format(n, ",")] for [0 <= n]. *)
Definition grouped (n : Z) : string := grouped_fuel (Z.to_nat (Z.log2 n)) n.

(** [num / den] rounded to the nearest integer, ties to even
    ([0 <= num], [0 < den]). *)
Definition round_half_even (num den : Z) : Z :=
  let q := num / den in
  let r := num mod den in
  if 2 * r <? den then q
  else if den <? 2 * r then q + 1
  else if Z.even q then q else q + 1.

(** [m * 2^e], in hundredths. *)
Definition hundredths (m : positive) (e : Z) : Z :=
  if 0 <=? e then Z.pos m * 100 * 2 ^ e
  else round_half_even (Z.pos m * 100) (2 ^ (- e)).

Definition sign (s : bool) : string := if s then "-" else "".

Definition format_2f (comma : bool) (v : float) : string :=
  match Prim2SF v with
  | S754_nan => "nan"
  | S754_infinity s => sign s ++ "inf"
  | S754_zero s => sign s ++ "0.00"
  | S754_finite s m e =>
      let n := hundredths m e in
      sign s ++ (if comma then grouped (n / 100) else digits (n / 100))
             ++ "." ++ pad2 (n mod 100)
  end.

(** An [int64] cell as a [float64], as numpy casts it before the product
    of line 103: the nearest [float64], exact below [2^53] in magnitude.
    Every magnitude of the [int64] range fits the 63 bits of the conversion
    but that of the least value, [- 2^63], which is a [float64] itself. *)
Definition of_int (z : Z) : float :=
  if z =? - 2 ^ 63 then PrimFloat.opp 9223372036854775808%float
  else if z <? 0 then PrimFloat.opp (PrimFloat.of_uint63 (Uint63.of_Z (- z)))
  else PrimFloat.of_uint63 (Uint63.of_Z z).

(** [Series.sum()] and [Series.mean()] on a [float64] column.  pandas hands
    them to numpy (or bottleneck), whose order of additions depends on the
    length of the column and on the build, so the report is stated over any
    pair of reductions. *)
Class SeriesReductions : Type := {
  series_sum : list float -> float;
  series_mean : list float -> float
}.

(** One pair of reductions, to evaluate the report on examples: NaN
    skipped and the additions done left to right from 0.  numpy adds a long
    column pairwise, so the two agree on short columns only; no theorem
    below is about this pair. *)
Definition notna (v : float) : bool := negb (PrimFloat.is_nan v).

Definition sequential : SeriesReductions := {|
  series_sum := fun col => fold_left PrimFloat.add (filter notna col) 0%float;
  series_mean := fun col =>
    PrimFloat.div (fold_left PrimFloat.add (filter notna col) 0%float)
                  (of_int (Z.of_nat (List.length (filter notna col))))
|}.

(* ================================================================== *)
(** ** Widgets *)

Inductive MetricValue : Type :=
| MInt (n : nat)
| MStr (s : string).

(** The calls the script makes on Streamlit, with the arguments that carry
    data.  [st.columns(3)] only lays the three metrics out and is left out.
    The table of [st_dataframe] is restricted to [columnas_display], which
    lists the nine columns of [Sku]: every column but the category. *)
Inductive Widget : Type :=
| st_plotly_chart (data : list CountRow)
| st_divider
| st_subheader (body : string)
| st_metric (label : string) (value : MetricValue)
| st_dataframe (data : list Sku)
| st_error (body : string)
| st_success (body : string)
| st_info (body : string).

(** The selection event returned by [st.plotly_chart]: no event, an event
    without the key ["selection"], or the list of the selected points, each
    with the category on its x axis. *)
Record Point : Type := mkPoint { point_x : string }.

Record Event : Type := mkEvent { selection : option (list Point) }.

(* ================================================================== *)
(** ** The detail of a selected bar (lines 84-120) *)

(** [needle in haystack] on [str]. *)
Fixpoint contains (needle haystack : string) : bool :=
  if String.prefix needle haystack then true
  else match haystack with
       | EmptyString => false
       | String _ rest => contains needle rest
       end.

(** [column == other] on a categorical column, cell by cell: when [other] is
    one of the categories the codes are compared (a NaN cell is unequal),
    otherwise the comparison is all [False]. *)
Definition cat_eq (c : option string) (other : string) : bool :=
  if existsb (String.eqb other) labels then cell_is other c else false.

Definition empty {A : Type} (df : list A) : bool :=
  match df with
  | [] => true
  | _ :: _ => false
  end.

(** [sort_values('Dias_Ultima_Factura', ascending=False)]. *)
Definition sort_values_desc (df : list Sku) : list Sku :=
  sort (fun a b => Dias_Ultima_Factura b <=? Dias_Ultima_Factura a) df.

Definition msg_critico : string :=
  "⚠️ **Acción Comercial Requerida:** Productos con nula rotación. Se recomienda remate o devolución a proveedor para liberar flujo.".

Definition msg_activo : string :=
  "✅ **Estado Óptimo:** Productos con alta rotación. Revisar que los puntos de reorden estén actualizados.".

Definition msg_no_data : string := "No hay datos para esta selección.".

Definition msg_idle : string :=
  "👆 Selecciona una barra del gráfico para desplegar el análisis de SKUs, utilidad y existencias.".

(** Lines 112-116. *)
Definition insight (categoria_seleccionada : string) : list Widget :=
  if contains "Crítico" categoria_seleccionada then [st_error msg_critico]
  else if contains "Activo" categoria_seleccionada then [st_success msg_activo]
  else [].

Section Report.
Context {SR : SeriesReductions}.

(** Line 91. *)
Definition df_detalle (categoria_seleccionada : string)
                      (df_inventario : list Sku) : list Sku :=
  filter (fun r => cat_eq (Categoria_Antiguedad r) categoria_seleccionada)
         df_inventario.

(** Lines 102-104. *)
Definition metrics_of (rows : list Sku) : list Widget :=
  [ st_metric "SKUs en Categoría" (MInt (List.length rows));
    st_metric "Inversión Total"
      (MStr ("$" ++ format_2f true
               (series_sum
                  (map (fun r => PrimFloat.mul (of_int (Existencia_Actual r))
                                               (Costo_Unitario r)) rows))));
    st_metric "Margen Promedio"
      (MStr (format_2f false
               (series_mean (map Margen_Utilidad_Porcentaje rows)) ++ "%")) ].

(** Lines 88-118 (the spec's [detail]). *)
Definition detail (categoria_seleccionada : string)
                  (df_inventario : list Sku) : list Widget :=
  let rows := df_detalle categoria_seleccionada df_inventario in
  [ st_divider;
    st_subheader ("🔍 Detalle Maestro: " ++ categoria_seleccionada) ] ++
  if negb (empty rows) then
    metrics_of rows ++ [st_dataframe (sort_values_desc rows)]
    ++ insight categoria_seleccionada
  else [st_info msg_no_data].

(** Lines 81-120: the chart, then the detail of the first selected point
    or the prompt to select a bar. *)
Definition report (event : option Event) (df_inventario : list Sku)
  : list Widget :=
  st_plotly_chart (df_conteo df_inventario) ::
  match event with
  | Some {| selection := Some (p :: _) |} => detail (point_x p) df_inventario
  | _ => [st_info msg_idle]
  end.
End Report.

(** What a rendered detail shows, widget kind by widget kind. *)
Definition metrics (ws : list Widget) : list (string * MetricValue) :=
  flat_map (fun w => match w with
                     | st_metric l v => [(l, v)]
                     | _ => []
                     end) ws.

Definition tables (ws : list Widget) : list (list Sku) :=
  flat_map (fun w => match w with
                     | st_dataframe d => [d]
                     | _ => []
                     end) ws.

Definition insights (ws : list Widget) : list Widget :=
  filter (fun w => match w with
                   | st_error _ | st_success _ => true
                   | _ => false
                   end) ws.

Definition infos (ws : list Widget) : list string :=
  flat_map (fun w => match w with
                     | st_info b => [b]
                     | _ => []
                     end) ws.

(** The records of a collection whose category is [c], in the order of the
    collection (the spec's matching records, before they are sorted). *)
Definition matching (c : string) (R : list Sku) : list Sku :=
  filter (fun r => cell_is c (Categoria_Antiguedad r)) R.

(** What [detail] renders when nothing matches. *)
Definition no_data (categoria_seleccionada : string) : list Widget :=
  [ st_divider;
    st_subheader ("🔍 Detalle Maestro: " ++ categoria_seleccionada);
    st_info msg_no_data ].

(** Neither NaN nor an infinity. *)
Definition finite (v : float) : bool :=
  match Prim2SF v with
  | S754_nan | S754_infinity _ => false
  | S754_zero _ | S754_finite _ _ _ => true
  end.

Definition is_digit (c : ascii) : bool :=
  (Nat.leb 48 (nat_of_ascii c) && Nat.leb (nat_of_ascii c) 57)%bool.

(** A text that ends with a point and two decimal digits. *)
Definition two_decimals (s : string) : Prop :=
  exists (body : string) (a b : ascii),
    s = body ++ "." ++ String a (String b EmptyString) /\
    is_digit a = true /\ is_digit b = true.

(* ================================================================== *)
(** ** Semaphore colours (lines 50-56) *)

(** The dict [colores_semaforo], as the list of its items. *)
Definition colores_semaforo : list (string * string) :=
  [ ("0-3 Meses (Activo)", "#2ECC71");
    ("3-6 Meses (Monitoreo)", "#F1C40F");
    ("6-12 Meses (Riesgo)", "#E67E22");
    ("12-24 Meses (Obsoleto)", "#E74C3C");
    ("+24 Meses (Crítico)", "#C0392B") ].

(** [d.get(k)]. *)
Fixpoint lookup (k : string) (d : list (string * string)) : option string :=
  match d with
  | [] => None
  | (k', v) :: d' => if String.eqb k' k then Some v else lookup k d'
  end.

(** The colour [px.bar] gives the bar of a row through
    [color_discrete_map]: the entry of its category, when there is one. *)
Definition bar_color (row : CountRow) : option string :=
  lookup (fst row) colores_semaforo.

(* ================================================================== *)
(** ** The generated inventory (lines 13-27) *)

Fixpoint zeros (k : nat) : string :=
  match k with
  | O => EmptyString
  | S k' => String "0" (zeros k')
  end.

(** [format(i, "04d")] for a natural number: its decimal digits, filled with
    zeros on the left up to four characters. *)
Definition format_04d (i : nat) : string :=
  let s := NilEmpty.string_of_uint (Nat.to_uint i) in
  zeros (4 - String.length s) ++ s.

(** Line 16. *)
Definition sku_name (i : nat) : string := "SKU-" ++ format_04d i.

(** The number printed in a SKU name. *)
Definition sku_index (s : string) : option nat :=
  match s with
  | String "S" (String "K" (String "U" (String "-" rest))) =>
      option_map Nat.of_uint (NilEmpty.uint_of_string rest)
  | _ => None
  end.

(** Line 21: [Cliente_A] to [Cliente_J]. *)
Definition clientes : list string :=
  map (fun i => "Cliente_" ++ String (ascii_of_nat (65 + i)) EmptyString)
      (seq 0 10).

(** [np.rint] on a [float64]: the nearest integer, ties to even.  Below
    [2^52] in magnitude adding and subtracting [2^52] rounds to an integer;
    from [2^52] on every [float64] is one. *)
Definition two52 : float := 4503599627370496%float.

Definition rint (v : float) : float :=
  let a := PrimFloat.abs v in
  if PrimFloat.ltb a two52 then
    let r := PrimFloat.sub (PrimFloat.add a two52) two52 in
    if PrimFloat.get_sign v then PrimFloat.opp r else r
  else v.

(** [np.round(v, 2)]: scale by 100, [rint], scale back. *)
Definition np_round2 (v : float) : float :=
  PrimFloat.div (rint (PrimFloat.mul v 100)) 100.

(** What the random generator draws for one row, column by column:
    [randint(0, 730)], [randint(0, 500)], [uniform(10, 500)],
    [uniform(15, 750)], the position [choice] picks in [clientes] and
    [randint(0, 365*2)].  The seed fixes one sequence of draws; the frame is
    modelled for any. *)
Record Draw : Type := mkDraw {
  draw_dias : Z;
  draw_existencia : Z;
  draw_costo : float;
  draw_precio : float;
  draw_cliente : nat;
  draw_fecha : Z
}.

(** Day number of 2023-01-01. *)
Definition fecha_base : Z := 19358.

(** Row [i] of the frame, lines 15-26. *)
Definition generate_row (i : nat) (d : Draw) : Sku :=
  let costo := np_round2 (draw_costo d) in
  let precio := np_round2 (draw_precio d) in
  let utilidad := PrimFloat.sub precio costo in
  {| SKU := sku_name i;
     Dias_Ultima_Factura := draw_dias d;
     Existencia_Actual := draw_existencia d;
     Costo_Unitario := costo;
     Precio_Venta_Unitario := precio;
     Cliente_Mas_Reciente := nth (draw_cliente d) clientes EmptyString;
     Fecha_Ultima_Compra := fecha_base + draw_fecha d;
     Utilidad_Unitaria := utilidad;
     Margen_Utilidad_Porcentaje :=
       np_round2 (PrimFloat.mul (PrimFloat.div utilidad precio) 100) |}.

Definition generate_data (num_skus : nat) (draws : nat -> Draw) : list Sku :=
  map (fun i => generate_row i (draws i)) (seq 0 num_skus).

(* ================================================================== *)
(** ** Sample records *)

(** The scenario of the specification (10 days with 5 units at 100 and 800
    days with 2 units at 50) and a record with a negative number of days. *)
Definition sku_10 : Sku :=
  mkSku "SKU-0000" 10 5 100 150 "Cliente_A" 19358 50 33.33.

Definition sku_800 : Sku :=
  mkSku "SKU-0001" 800 2 50 60 "Cliente_B" 19400 10 16.67.

Definition sku_neg : Sku :=
  mkSku "SKU-0002" (-1) 7 20 30 "Cliente_C" 19500 10 33.33.

(** Sample draws: row [i] is [37 * i mod 730] days old. *)
Definition sample_draws (i : nat) : Draw :=
  mkDraw (Z.of_nat (37 * i) mod 730) (Z.of_nat i) 123.456 200.5 (i mod 10) 3.

(* ================================================================== *)
(** * Properties *)

(* ================================================================== *)
(** ** The classifier *)

Lemma classify_cases (d : Z) :
  (d < 0 /\ classify d = None) \/
  (0 <= d < 90 /\ classify d = nth_error labels 0) \/
  (90 <= d < 180 /\ classify d = nth_error labels 1) \/
  (180 <= d < 365 /\ classify d = nth_error labels 2) \/
  (365 <= d < 730 /\ classify d = nth_error labels 3) \/
  (730 <= d /\ classify d = nth_error labels 4).
Proof.
  unfold classify, cut, bins; cbn [searchsorted_right edge_leb edge_eqb length].
  destruct (0 =? d) eqn:E0.
  - apply Z.eqb_eq in E0; subst d. right; left. split; [lia | reflexivity].
  - destruct (0 <=? d) eqn:L0; [| left; split; [lia | reflexivity]].
    destruct (90 <=? d) eqn:L1; [| right; left; split; [lia | reflexivity]].
    destruct (180 <=? d) eqn:L2;
      [| right; right; left; split; [lia | reflexivity]].
    destruct (365 <=? d) eqn:L3;
      [| right; right; right; left; split; [lia | reflexivity]].
    destruct (730 <=? d) eqn:L4;
      [| right; right; right; right; left; split; [lia | reflexivity]].
    right; right; right; right; right; split; [lia | reflexivity].
Qed.

Lemma in_bin_bounds (d : Z) (i : nat) :
  in_bin d i <->
  (i = 0%nat /\ 0 <= d < 90) \/ (i = 1%nat /\ 90 <= d < 180) \/
  (i = 2%nat /\ 180 <= d < 365) \/ (i = 3%nat /\ 365 <= d < 730) \/
  (i = 4%nat /\ 730 <= d).
Proof.
  unfold in_bin, bins; split.
  - intros (lo & hi & Hlo & Hhi & Hle & Hgt).
    do 5 (destruct i as [| i];
          [ cbn in Hlo, Hhi; inversion Hlo; inversion Hhi; subst;
            cbn in Hle, Hgt; lia | ]).
    destruct i; cbn in Hhi; discriminate.
  - intros [(-> & H) | [(-> & H) | [(-> & H) | [(-> & H) | (-> & H)]]]];
      cbn; eexists; eexists; (repeat split; try reflexivity); cbn; lia.
Qed.

(** C1.  For every non-negative number of days [d] the classifier returns
    one of the five labels, the day range [[lo, hi)] of that label's bin
    contains [d], and no other bin does; 89 days is "0-3 months", 90 days is
    "3-6 months", 729 days is "12-24 months" and 730 days is "+24 months". *)
Theorem classify_in_range :
  (forall d : Z, 0 <= d ->
     exists (i : nat) (l : string),
       (i < 5)%nat /\ nth_error labels i = Some l /\
       classify d = Some l /\ in_bin d i /\
       (forall j, in_bin d j -> j = i)) /\
  classify 89 = Some "0-3 Meses (Activo)" /\
  classify 90 = Some "3-6 Meses (Monitoreo)" /\
  classify 729 = Some "12-24 Meses (Obsoleto)" /\
  classify 730 = Some "+24 Meses (Crítico)".
Proof.
  split; [| repeat split; reflexivity].
  intros d Hd.
  assert (Huniq : forall i, in_bin d i -> forall j, in_bin d j -> j = i).
  { intros i Hi j Hj. apply in_bin_bounds in Hi, Hj. lia. }
  destruct (classify_cases d)
    as [(H & _) | [(H & E) | [(H & E) | [(H & E) | [(H & E) | (H & E)]]]]];
    [lia | | | | |].
  all: match type of E with
       | _ = nth_error labels ?n =>
           assert (Hin : in_bin d n) by (apply in_bin_bounds; lia);
           exists n; eexists;
           split; [cbn; lia |];
           split; [reflexivity |];
           split; [exact E |];
           split; [exact Hin | exact (Huniq n Hin)]
       end.
Qed.

Lemma classify_in_range_witness :
  0 <= 200 /\
  exists (i : nat) (l : string),
    (i < 5)%nat /\ nth_error labels i = Some l /\
    classify 200 = Some l /\ in_bin 200 i /\
    (forall j, in_bin 200 j -> j = i).
Proof.
  assert (H : 0 <= 200) by lia.
  split; [exact H | exact (proj1 classify_in_range 200 H)].
Defined.


(* ================================================================== *)
(** ** Sorting *)

Section SortingFacts.
Context {A : Type}.
Variable leb : A -> A -> bool.

Lemma insert_perm (a : A) (l : list A) :
  Permutation (insert leb a l) (a :: l).
Proof.
  induction l as [| b l IH]; cbn; [reflexivity |].
  destruct (leb a b); [reflexivity |].
  rewrite IH. apply perm_swap.
Qed.

Lemma sort_perm (l : list A) : Permutation (sort leb l) l.
Proof.
  induction l as [| a l IH]; cbn; [constructor |].
  rewrite insert_perm. now constructor.
Qed.

Hypothesis leb_total : forall a b, leb a b = false -> leb b a = true.

Lemma insert_sorted (a : A) (l : list A) :
  Sorted (fun x y => leb x y = true) l ->
  Sorted (fun x y => leb x y = true) (insert leb a l).
Proof.
  induction 1 as [| b l Hs IH Hhd]; cbn; [repeat constructor |].
  destruct (leb a b) eqn:E.
  - repeat constructor; assumption.
  - constructor; [exact IH |].
    destruct Hhd as [| c l' Hbc]; cbn.
    + constructor. now apply leb_total.
    + destruct (leb a c); constructor; [now apply leb_total | exact Hbc].
Qed.

Lemma sort_sorted (l : list A) :
  Sorted (fun x y => leb x y = true) (sort leb l).
Proof.
  induction l as [| a l IH]; cbn; [constructor | now apply insert_sorted].
Qed.
End SortingFacts.

(** A strictly sorted list is the only sorted arrangement of its elements. *)
Lemma sorted_perm_unique {A : Type} (lt le : A -> A -> Prop) :
  (forall a b, lt a b -> le b a -> False) ->
  forall l1 l2 : list A,
    StronglySorted lt l1 -> StronglySorted le l2 -> Permutation l1 l2 ->
    l1 = l2.
Proof.
  intros Hasym l1.
  induction l1 as [| a l1 IH]; intros l2 H1 H2 HP.
  - now apply Permutation_nil in HP.
  - destruct l2 as [| b l2].
    { symmetry in HP. now apply Permutation_nil in HP. }
    apply StronglySorted_inv in H1 as [H1 Ha].
    apply StronglySorted_inv in H2 as [H2 Hb].
    assert (Hab : a = b).
    { assert (Hina : In a (b :: l2))
        by (eapply Permutation_in; [exact HP | now left]).
      assert (Hinb : In b (a :: l1))
        by (eapply Permutation_in; [symmetry; exact HP | now left]).
      destruct Hina as [-> | Hina]; [reflexivity |].
      destruct Hinb as [-> | Hinb]; [reflexivity |].
      exfalso. rewrite Forall_forall in Ha, Hb.
      exact (Hasym a b (Ha b Hinb) (Hb a Hina)). }
    subst b. f_equal. apply IH; try assumption.
    now apply Permutation_cons_inv in HP.
Qed.

(* ================================================================== *)
(** ** The counts *)

Lemma code_leb_total (a b : option nat) :
  code_leb a b = false -> code_leb b a = true.
Proof.
  destruct a, b; cbn; try congruence.
  intros H. apply Nat.leb_gt in H. apply Nat.leb_le. lia.
Qed.

Lemma code_leb_trans (a b c : option nat) :
  code_leb a b = true -> code_leb b c = true -> code_leb a c = true.
Proof.
  destruct a, b, c; cbn; try congruence.
  rewrite !Nat.leb_le. lia.
Qed.

(** [df_conteo] has one row per label, in the order of [labels], whatever the
    order in which [value_counts] left them. *)
Lemma df_conteo_rows (df : list Sku) :
  df_conteo df = rows_in_label_order (map Categoria_Antiguedad df).
Proof.
  unfold df_conteo. set (col := map Categoria_Antiguedad df).
  symmetry.
  apply (sorted_perm_unique (fun a b => by_category b a = false)
                            (fun a b => by_category a b = true)).
  - intros a b H1 H2. congruence.
  - unfold rows_in_label_order, labels; cbn [map].
    repeat (constructor; [| repeat constructor; reflexivity]). constructor.
  - apply Sorted_StronglySorted.
    + intros a b c. unfold by_category. apply code_leb_trans.
    + apply sort_sorted. intros a b. unfold by_category. apply code_leb_total.
  - unfold value_counts. fold (rows_in_label_order col).
    symmetry. etransitivity; apply sort_perm.
Qed.

Lemma Categoria_Antiguedad_cases (r : Sku) :
  (Dias_Ultima_Factura r < 0 /\ Categoria_Antiguedad r = None) \/
  (0 <= Dias_Ultima_Factura r /\
   exists l, In l labels /\ Categoria_Antiguedad r = Some l).
Proof.
  unfold Categoria_Antiguedad. fold (classify (Dias_Ultima_Factura r)).
  destruct (classify_cases (Dias_Ultima_Factura r))
    as [(H & E) | [(H & E) | [(H & E) | [(H & E) | [(H & E) | (H & E)]]]]];
    [left; split; assumption | right ..];
    (split; [lia |]); rewrite E; eexists; (split; [| reflexivity]);
    cbn; tauto.
Qed.

Lemma bincount_cons (c : option string) (col : list (option string))
                    (l : string) :
  bincount (c :: col) l = ((if cell_is l c then 1 else 0) + bincount col l)%nat.
Proof.
  unfold bincount; cbn [filter]. destruct (cell_is l c); reflexivity.
Qed.

Lemma bincount_matching (df : list Sku) (l : string) :
  bincount (map Categoria_Antiguedad df) l =
  List.length (filter (fun r => cell_is l (Categoria_Antiguedad r)) df).
Proof.
  induction df as [| r df IH]; [reflexivity |].
  cbn [map]. rewrite bincount_cons, IH; cbn [filter].
  destruct (cell_is l (Categoria_Antiguedad r)); reflexivity.
Qed.

(** The counts add up to the number of rows that received a category. *)
Lemma total_count_classified (df : list Sku) :
  total_count (df_conteo df) =
  List.length (filter (fun r => 0 <=? Dias_Ultima_Factura r) df).
Proof.
  rewrite df_conteo_rows.
  induction df as [| r df IH]; [reflexivity |].
  unfold rows_in_label_order, labels in *.
  cbn [map total_count fold_right snd] in *.
  rewrite !bincount_cons. cbn [filter].
  destruct (Categoria_Antiguedad_cases r) as [(H & E) | (H & l & Hl & E)];
    rewrite E.
  - replace (0 <=? Dias_Ultima_Factura r) with false by (symmetry; lia).
    cbn [cell_is]. lia.
  - replace (0 <=? Dias_Ultima_Factura r) with true by (symmetry; lia).
    cbn [List.length]. rewrite <- IH.
    cbn in Hl.
    destruct Hl as [<- | [<- | [<- | [<- | [<- | []]]]]]; cbn; lia.
Qed.

Lemma filter_all {A : Type} (f : A -> bool) (l : list A) :
  (forall a, In a l -> f a = true) -> filter f l = l.
Proof.
  induction l as [| a l IH]; intros H; cbn; [reflexivity |].
  rewrite (H a (or_introl eq_refl)). f_equal. apply IH.
  intros b Hb. apply H. now right.
Qed.

(** C2.  When every record has a non-negative number of days, the counts of
    the rows add up to the number of records: each row counts the records of
    its category, and each record falls in exactly one row. *)
Theorem counts_sum_to_length (R : list Sku) :
  (forall r, In r R -> 0 <= Dias_Ultima_Factura r) ->
  total_count (df_conteo R) = List.length R /\
  (forall l n, In (l, n) (df_conteo R) ->
     n = List.length (filter (fun r => cell_is l (Categoria_Antiguedad r)) R)) /\
  (forall r, In r R ->
     List.length (filter (fun row => cell_is (fst row) (Categoria_Antiguedad r))
                         (df_conteo R)) = 1%nat).
Proof.
  intros Hnonneg. split; [| split].
  - rewrite total_count_classified, filter_all; [reflexivity |].
    intros r Hr. apply Z.leb_le. now apply Hnonneg.
  - intros l n Hin. rewrite df_conteo_rows in Hin.
    unfold rows_in_label_order in Hin. apply in_map_iff in Hin.
    destruct Hin as (l' & Heq & _). inversion Heq; subst.
    apply bincount_matching.
  - intros r Hr. rewrite df_conteo_rows.
    destruct (Categoria_Antiguedad_cases r) as [(H & _) | (_ & l & Hl & E)].
    + specialize (Hnonneg r Hr). lia.
    + rewrite E. cbn in Hl.
      destruct Hl as [<- | [<- | [<- | [<- | [<- | []]]]]]; reflexivity.
Qed.

Lemma counts_sum_to_length_witness :
  (forall r, In r [sku_10; sku_800] -> 0 <= Dias_Ultima_Factura r) /\
  total_count (df_conteo [sku_10; sku_800]) = 2%nat.
Proof.
  assert (H : forall r, In r [sku_10; sku_800] -> 0 <= Dias_Ultima_Factura r).
  { intros r [<- | [<- | []]]; cbn; lia. }
  split; [exact H |].
  exact (proj1 (counts_sum_to_length [sku_10; sku_800] H)).
Defined.

(** C3.  The rows come in the fixed order of the five categories for every
    collection.  The order follows neither the counts (two records of more
    than 24 months and one of less than 3 still list the latter first) nor
    the alphabet (the last label sorts before the first). *)
Theorem rows_in_fixed_order :
  (forall R : list Sku, map fst (df_conteo R) = labels) /\
  df_conteo [sku_800; sku_800; sku_10] =
    [ ("0-3 Meses (Activo)", 1%nat); ("3-6 Meses (Monitoreo)", 0%nat);
      ("6-12 Meses (Riesgo)", 0%nat); ("12-24 Meses (Obsoleto)", 0%nat);
      ("+24 Meses (Crítico)", 2%nat) ] /\
  String.ltb "+24 Meses (Crítico)" "0-3 Meses (Activo)" = true.
Proof.
  split; [| split; reflexivity].
  intros R. rewrite df_conteo_rows. reflexivity.
Qed.

(** C4, as amended.  A category with no matching record still has its row,
    with count 0: the counts always come as five rows, one per label. *)
Theorem zero_count_rows_kept (R : list Sku) (l : string) :
  In l labels ->
  (forall r, In r R -> Categoria_Antiguedad r <> Some l) ->
  In (l, 0%nat) (df_conteo R) /\ List.length (df_conteo R) = 5%nat.
Proof.
  intros Hl Hnone. rewrite df_conteo_rows. split; [| reflexivity].
  unfold rows_in_label_order. apply in_map_iff. exists l. split; [| exact Hl].
  f_equal. rewrite bincount_matching.
  induction R as [| r R IH]; [reflexivity |].
  cbn [filter].
  destruct (Categoria_Antiguedad r) as [l' |] eqn:E; cbn [cell_is].
  - destruct (String.eqb_spec l' l) as [-> | _].
    + exfalso. apply (Hnone r); [now left | exact E].
    + apply IH. intros r' Hr'. apply Hnone. now right.
  - apply IH. intros r' Hr'. apply Hnone. now right.
Qed.

Lemma zero_count_rows_kept_witness :
  In "6-12 Meses (Riesgo)" labels /\
  (forall r, In r [sku_10; sku_800] ->
     Categoria_Antiguedad r <> Some "6-12 Meses (Riesgo)") /\
  In ("6-12 Meses (Riesgo)", 0%nat) (df_conteo [sku_10; sku_800]).
Proof.
  assert (Hl : In "6-12 Meses (Riesgo)" labels) by (cbn; tauto).
  assert (Hnone : forall r, In r [sku_10; sku_800] ->
                    Categoria_Antiguedad r <> Some "6-12 Meses (Riesgo)").
  { intros r [<- | [<- | []]]; vm_compute; discriminate. }
  split; [exact Hl |]. split; [exact Hnone |].
  exact (proj1 (zero_count_rows_kept [sku_10; sku_800] _ Hl Hnone)).
Defined.

(** C4, as stated, fails: with one record of 10 days and one of 800 days no
    record is in "6-12 months", and the row of that category is there. *)
Lemma zero_count_rows_not_omitted :
  ~ (forall (R : list Sku) (l : string),
       (forall r, In r R -> Categoria_Antiguedad r <> Some l) ->
       forall n, ~ In (l, n) (df_conteo R)).
Proof.
  intros H.
  apply (H [sku_10; sku_800] "6-12 Meses (Riesgo)") with (n := 0%nat).
  - intros r [<- | [<- | []]]; vm_compute; discriminate.
  - vm_compute. tauto.
Qed.

Lemma filter_app_cons_false {A : Type} (f : A -> bool) (l1 l2 : list A) (a : A) :
  f a = false -> filter f (l1 ++ a :: l2) = filter f (l1 ++ l2).
Proof.
  intros H. rewrite !filter_app. cbn [filter]. now rewrite H.
Qed.

(** C10.  A record with a negative number of days gets no category (a NaN
    cell), no row counts it (the rows are those of the collection without
    it), and the counts of a collection that holds it add up to less than
    the number of records. *)
Theorem negative_days_uncounted (r : Sku) (R1 R2 : list Sku) :
  Dias_Ultima_Factura r < 0 ->
  Categoria_Antiguedad r = None /\
  df_conteo (R1 ++ r :: R2) = df_conteo (R1 ++ R2) /\
  (total_count (df_conteo (R1 ++ r :: R2)) < List.length (R1 ++ r :: R2))%nat.
Proof.
  intros Hneg.
  assert (E : Categoria_Antiguedad r = None).
  { destruct (Categoria_Antiguedad_cases r) as [(_ & E) | (H & _)];
      [exact E | lia]. }
  split; [exact E |]. split.
  - rewrite !df_conteo_rows. unfold rows_in_label_order.
    apply map_ext. intros l. f_equal. rewrite !bincount_matching.
    rewrite filter_app_cons_false; [reflexivity |].
    rewrite E. reflexivity.
  - rewrite total_count_classified, filter_app_cons_false by lia.
    rewrite !length_app. cbn [List.length].
    pose proof (filter_length_le (fun r => 0 <=? Dias_Ultima_Factura r) R1).
    pose proof (filter_length_le (fun r => 0 <=? Dias_Ultima_Factura r) R2).
    rewrite filter_app, length_app. lia.
Qed.

Lemma negative_days_uncounted_witness :
  Dias_Ultima_Factura sku_neg < 0 /\
  Categoria_Antiguedad sku_neg = None /\
  df_conteo ([sku_10] ++ sku_neg :: [sku_800]) = df_conteo [sku_10; sku_800].
Proof.
  assert (H : Dias_Ultima_Factura sku_neg < 0) by (cbn; lia).
  split; [exact H |].
  pose proof (negative_days_uncounted sku_neg [sku_10] [sku_800] H)
    as (E & Hrows & _).
  split; [exact E | exact Hrows].
Defined.

(* ================================================================== *)
(** ** The detail of a selection *)

Lemma filter_none {A : Type} (f : A -> bool) (l : list A) :
  (forall a, In a l -> f a = false) -> filter f l = [].
Proof.
  induction l as [| a l IH]; intros H; cbn; [reflexivity |].
  rewrite (H a (or_introl eq_refl)). apply IH.
  intros b Hb. apply H. now right.
Qed.

Lemma existsb_eqb_In (s : string) (ls : list string) :
  existsb (String.eqb s) ls = true <-> In s ls.
Proof.
  rewrite existsb_exists. split.
  - intros (x & Hx & E). apply String.eqb_eq in E. now subst.
  - intros H. exists s. split; [exact H | apply String.eqb_refl].
Qed.

(** The comparison of line 91 selects the records of category [c], for a
    label and for any other string alike. *)
Lemma df_detalle_matching {SR : SeriesReductions} (c : string) (R : list Sku) :
  df_detalle c R = matching c R.
Proof.
  unfold df_detalle, matching. apply filter_ext. intros r.
  unfold cat_eq. destruct (existsb (String.eqb c) labels) eqn:E;
    [reflexivity |].
  destruct (Categoria_Antiguedad_cases r) as [(_ & ->) | (_ & l & Hl & ->)];
    [reflexivity |].
  cbn [cell_is]. symmetry. apply String.eqb_neq. intros ->.
  apply existsb_eqb_In in Hl. congruence.
Qed.

Lemma matching_none (c : string) (R : list Sku) :
  (forall r, In r R -> Categoria_Antiguedad r <> Some c) -> matching c R = [].
Proof.
  intros H. apply filter_none. intros r Hr.
  destruct (Categoria_Antiguedad r) as [l |] eqn:E; [| reflexivity].
  cbn. apply String.eqb_neq. intros ->. now apply (H r Hr).
Qed.

Lemma matching_some (c : string) (R : list Sku) :
  (exists r, In r R /\ Categoria_Antiguedad r = Some c) ->
  empty (matching c R) = false /\ In c labels.
Proof.
  intros (r & Hr & E). split.
  - assert (Hin : In r (matching c R)).
    { apply filter_In. split; [exact Hr |]. rewrite E. apply String.eqb_refl. }
    destruct (matching c R); [contradiction | reflexivity].
  - destruct (Categoria_Antiguedad_cases r) as [(_ & E') | (_ & l & Hl & E')];
      congruence.
Qed.

Lemma detail_empty {SR : SeriesReductions} (c : string) (R : list Sku) :
  matching c R = [] -> detail c R = no_data c.
Proof.
  intros H. unfold detail. rewrite df_detalle_matching, H. reflexivity.
Qed.

Lemma detail_nonempty {SR : SeriesReductions} (c : string) (R : list Sku) :
  empty (matching c R) = false ->
  detail c R =
    ([ st_divider; st_subheader ("🔍 Detalle Maestro: " ++ c) ]
     ++ metrics_of (matching c R)
     ++ [st_dataframe (sort_values_desc (matching c R))]
     ++ insight c)%list.
Proof.
  intros H. unfold detail. rewrite df_detalle_matching, H. reflexivity.
Qed.

Lemma insight_shape (c : string) :
  metrics (insight c) = [] /\ tables (insight c) = [] /\
  insights (insight c) = insight c.
Proof.
  unfold insight.
  destruct (contains "Crítico" c); [repeat split |].
  destruct (contains "Activo" c); repeat split.
Qed.

(** C5.  When no record of the collection is in category [c] (in particular
    when the collection is empty) the detail is the "no data" message: no
    metric, no table and no insight are rendered, and no sum or mean is
    taken, whatever the reductions are. *)
Theorem no_match_no_data {SR : SeriesReductions} (c : string) (R : list Sku) :
  (forall r, In r R -> Categoria_Antiguedad r <> Some c) ->
  detail c R = no_data c /\
  infos (detail c R) = [msg_no_data] /\
  metrics (detail c R) = [] /\
  tables (detail c R) = [] /\
  insights (detail c R) = [] /\
  detail c [] = no_data c.
Proof.
  intros H. rewrite (detail_empty c R (matching_none c R H)).
  repeat split.
Qed.

Lemma no_match_no_data_witness :
  (forall r, In r [sku_10; sku_800] ->
     Categoria_Antiguedad r <> Some "6-12 Meses (Riesgo)") /\
  detail (SR := sequential) "6-12 Meses (Riesgo)" [sku_10; sku_800] =
    no_data "6-12 Meses (Riesgo)".
Proof.
  assert (Hnone : forall r, In r [sku_10; sku_800] ->
                    Categoria_Antiguedad r <> Some "6-12 Meses (Riesgo)").
  { intros r [<- | [<- | []]]; vm_compute; discriminate. }
  split; [exact Hnone |].
  exact (proj1 (no_match_no_data (SR := sequential) _ _ Hnone)).
Defined.

(** C6.  A selection that is not one of the five labels matches no record:
    the detail is the "no data" message, for every collection. *)
Theorem unknown_label_no_data {SR : SeriesReductions} (s : string)
                              (R : list Sku) :
  ~ In s labels ->
  detail s R = no_data s /\ infos (detail s R) = [msg_no_data].
Proof.
  intros Hs.
  assert (H : matching s R = []).
  { apply matching_none. intros r _ E.
    destruct (Categoria_Antiguedad_cases r) as [(_ & E') | (_ & l & Hl & E')];
      congruence. }
  rewrite (detail_empty s R H). split; reflexivity.
Qed.

Lemma unknown_label_no_data_witness :
  ~ In "Todos" labels /\
  detail (SR := sequential) "Todos" [sku_10; sku_800] = no_data "Todos".
Proof.
  assert (Hs : ~ In "Todos" labels).
  { cbn. intros [H | [H | [H | [H | [H | []]]]]]; discriminate H. }
  split; [exact Hs |].
  exact (proj1 (unknown_label_no_data (SR := sequential) "Todos" _ Hs)).
Defined.

Lemma projections_nonempty {SR : SeriesReductions} (c : string) (R : list Sku) :
  empty (matching c R) = false ->
  metrics (detail c R) = metrics (metrics_of (matching c R)) /\
  tables (detail c R) = [sort_values_desc (matching c R)] /\
  insights (detail c R) = insight c.
Proof.
  intros H. rewrite (detail_nonempty c R H).
  destruct (insight_shape c) as (Hm & Ht & Hi).
  unfold metrics, tables, insights in *.
  rewrite !flat_map_app, !filter_app, Hm, Ht, Hi. repeat split.
Qed.

(** Python's rendering of some amounts: grouped thousands, two decimals,
    ties on the binary value to even. *)
Example format_2f_samples :
  format_2f true 100 = "100.00" /\
  format_2f true 1234567.891 = "1,234,567.89" /\
  format_2f true 999.995 = "1,000.00" /\
  format_2f false 0.125 = "0.12" /\
  format_2f false 0.375 = "0.38" /\
  format_2f false 2.675 = "2.67".
Proof.
  repeat split; vm_compute; reflexivity.
Qed.

(** The shape of the three metrics when at least one record is in category
    [c]: the number of matching records, and the two reductions applied to
    the columns of the matching records, printed by [format_2f].  What a
    [float64] reduction returns is not related to an exact sum or mean
    here. *)
Lemma metrics_over_matching {SR : SeriesReductions} (c : string)
                              (R : list Sku) :
  (exists r, In r R /\ Categoria_Antiguedad r = Some c) ->
  metrics (detail c R) =
    [ ("SKUs en Categoría", MInt (List.length (matching c R)));
      ("Inversión Total",
       MStr ("$" ++ format_2f true
               (series_sum
                  (map (fun r => PrimFloat.mul (of_int (Existencia_Actual r))
                                               (Costo_Unitario r))
                       (matching c R)))));
      ("Margen Promedio",
       MStr (format_2f false
               (series_mean (map Margen_Utilidad_Porcentaje (matching c R)))
             ++ "%")) ].
Proof.
  intros H. apply matching_some in H as (H & _).
  now rewrite (proj1 (projections_nonempty c R H)).
Qed.

Lemma metrics_over_matching_witness :
  (exists r, In r [sku_10; sku_800] /\
             Categoria_Antiguedad r = Some "+24 Meses (Crítico)") /\
  metrics (detail (SR := sequential) "+24 Meses (Crítico)" [sku_10; sku_800]) =
    [ ("SKUs en Categoría", MInt 1);
      ("Inversión Total", MStr "$100.00");
      ("Margen Promedio", MStr "16.67%") ].
Proof.
  assert (H : exists r, In r [sku_10; sku_800] /\
                        Categoria_Antiguedad r = Some "+24 Meses (Crítico)").
  { exists sku_800. split; [cbn; tauto | reflexivity]. }
  split; [exact H |].
  rewrite (metrics_over_matching (SR := sequential) _ _ H).
  vm_compute. reflexivity.
Defined.

Lemma StronglySorted_impl {A : Type} (P Q : A -> A -> Prop) (l : list A) :
  (forall a b, P a b -> Q a b) -> StronglySorted P l -> StronglySorted Q l.
Proof.
  intros HPQ. induction 1 as [| a l Hs IH Hall]; constructor; [exact IH |].
  eapply Forall_impl; [apply HPQ | exact Hall].
Qed.

Lemma sort_values_desc_sorted (df : list Sku) :
  StronglySorted (fun a b => Dias_Ultima_Factura b <= Dias_Ultima_Factura a)
                 (sort_values_desc df).
Proof.
  apply StronglySorted_impl
    with (P := fun a b => (Dias_Ultima_Factura b <=? Dias_Ultima_Factura a) = true).
  - intros a b. apply Z.leb_le.
  - apply Sorted_StronglySorted.
    + intros a b c. rewrite !Z.leb_le. lia.
    + apply sort_sorted. intros a b. rewrite Z.leb_gt, Z.leb_le. lia.
Qed.

(** C8.  The table of the detail holds exactly the records of the collection
    whose category is the selected one, most days first; there is no table
    when no record matches. *)
Theorem detail_rows_sorted {SR : SeriesReductions} (c : string) (R : list Sku) :
  exists t : list Sku,
    tables (detail c R) = (if empty (matching c R) then [] else [t]) /\
    Permutation t (matching c R) /\
    (forall r, In r t <-> In r R /\ Categoria_Antiguedad r = Some c) /\
    StronglySorted (fun a b => Dias_Ultima_Factura b <= Dias_Ultima_Factura a) t.
Proof.
  exists (sort_values_desc (matching c R)).
  assert (HP : Permutation (sort_values_desc (matching c R)) (matching c R))
    by apply sort_perm.
  split; [| split; [exact HP | split; [| apply sort_values_desc_sorted]]].
  - destruct (empty (matching c R)) eqn:E.
    + destruct (matching c R) eqn:Em; [| discriminate].
      rewrite (detail_empty c R Em). reflexivity.
    + apply (projections_nonempty c R E).
  - intros r. split.
    + intros Hr. apply (Permutation_in _ HP) in Hr.
      apply filter_In in Hr as (Hr & E). split; [exact Hr |].
      destruct (Categoria_Antiguedad r) as [l |]; [| discriminate].
      cbn in E. apply String.eqb_eq in E. now subst.
    + intros (Hr & E). apply (Permutation_in _ (Permutation_sym HP)).
      apply filter_In. split; [exact Hr |]. rewrite E. apply String.eqb_refl.
Qed.

(** C9.  When at least one record is in the selected category: for the last
    category ("+24 months", critical) the insight is the action-required
    message that recommends liquidation or return to the vendor; for the
    first ("0-3 months", optimal) it is the success message that recommends a
    review of the reorder points; for the three categories in between no
    insight is rendered. *)
Theorem insight_by_tier {SR : SeriesReductions} (c : string) (R : list Sku) :
  (exists r, In r R /\ Categoria_Antiguedad r = Some c) ->
  (c = "+24 Meses (Crítico)" ->
     insights (detail c R) = [st_error msg_critico]) /\
  (c = "0-3 Meses (Activo)" ->
     insights (detail c R) = [st_success msg_activo]) /\
  (c <> "+24 Meses (Crítico)" -> c <> "0-3 Meses (Activo)" ->
     insights (detail c R) = []) /\
  contains "Acción Comercial Requerida" msg_critico = true /\
  contains "remate o devolución a proveedor" msg_critico = true /\
  contains "puntos de reorden" msg_activo = true.
Proof.
  intros H. apply matching_some in H as (H & Hc).
  rewrite (proj2 (proj2 (projections_nonempty c R H))).
  cbn in Hc.
  destruct Hc as [<- | [<- | [<- | [<- | [<- | []]]]]];
    (split; [| split; [| split; [| repeat split]]]);
    try discriminate; try reflexivity; try congruence.
Qed.

Lemma insight_by_tier_witness :
  (exists r, In r [sku_10; sku_800] /\
             Categoria_Antiguedad r = Some "+24 Meses (Crítico)") /\
  insights (detail (SR := sequential) "+24 Meses (Crítico)" [sku_10; sku_800]) =
    [st_error msg_critico].
Proof.
  assert (H : exists r, In r [sku_10; sku_800] /\
                        Categoria_Antiguedad r = Some "+24 Meses (Crítico)").
  { exists sku_800. split; [cbn; tauto | reflexivity]. }
  split; [exact H |].
  exact (proj1 (insight_by_tier (SR := sequential) _ _ H) eq_refl).
Defined.

(* ================================================================== *)
(** ** Further properties of the classifier and of the counts *)

(** The category never goes down as the days go up: an older record is in
    the same bin or in a later one. *)
Theorem classify_monotone (d1 d2 : Z) :
  0 <= d1 -> d1 <= d2 ->
  exists (l1 l2 : string) (i j : nat),
    classify d1 = Some l1 /\ classify d2 = Some l2 /\
    code labels l1 = Some i /\ code labels l2 = Some j /\ (i <= j)%nat.
Proof.
  intros H0 H12.
  destruct (classify_cases d1)
    as [(H1 & _) | [(H1 & E1) | [(H1 & E1) | [(H1 & E1) | [(H1 & E1) | (H1 & E1)]]]]];
    [exfalso; lia | | | | |];
    (destruct (classify_cases d2)
      as [(H2 & _) | [(H2 & E2) | [(H2 & E2) | [(H2 & E2) | [(H2 & E2) | (H2 & E2)]]]]];
     try (exfalso; lia));
    rewrite E1, E2; do 4 eexists;
    (split; [reflexivity |]); (split; [reflexivity |]);
    (split; [reflexivity |]); (split; [reflexivity |]); lia.
Qed.

Lemma classify_monotone_witness :
  0 <= 89 /\ 89 <= 400 /\
  exists (l1 l2 : string) (i j : nat),
    classify 89 = Some l1 /\ classify 400 = Some l2 /\
    code labels l1 = Some i /\ code labels l2 = Some j /\ (i <= j)%nat.
Proof.
  assert (H0 : 0 <= 89) by lia.
  assert (H1 : 89 <= 400) by lia.
  split; [exact H0 |]. split; [exact H1 |].
  exact (classify_monotone 89 400 H0 H1).
Defined.

Lemma filter_length_perm {A : Type} (f : A -> bool) (l l' : list A) :
  Permutation l l' -> List.length (filter f l) = List.length (filter f l').
Proof.
  induction 1 as [| a l l' _ IH | a b l | l l' l'' _ IH1 _ IH2]; cbn.
  - reflexivity.
  - destruct (f a); cbn; congruence.
  - destruct (f a), (f b); reflexivity.
  - congruence.
Qed.

(** The counts depend on which records the table holds, not on the order of
    its rows. *)
Theorem df_conteo_permutation (R R' : list Sku) :
  Permutation R R' -> df_conteo R = df_conteo R'.
Proof.
  intros HP. rewrite !df_conteo_rows. unfold rows_in_label_order.
  apply map_ext. intros l. f_equal. rewrite !bincount_matching.
  now apply filter_length_perm.
Qed.

Lemma df_conteo_permutation_witness :
  Permutation [sku_10; sku_neg; sku_800] [sku_800; sku_10; sku_neg] /\
  df_conteo [sku_10; sku_neg; sku_800] = df_conteo [sku_800; sku_10; sku_neg].
Proof.
  assert (HP : Permutation [sku_10; sku_neg; sku_800]
                           [sku_800; sku_10; sku_neg]).
  { apply Permutation_sym. apply (Permutation_cons_app [_; _] []).
    reflexivity. }
  split; [exact HP | exact (df_conteo_permutation _ _ HP)].
Defined.

(** Every bar has an entry in the colour map, so none falls back on the
    default palette: from left to right the bars are green, yellow, orange,
    red and dark red, whatever the data. *)
Theorem bars_have_semaphore_colors (R : list Sku) :
  map bar_color (df_conteo R) =
    [ Some "#2ECC71"; Some "#F1C40F"; Some "#E67E22";
      Some "#E74C3C"; Some "#C0392B" ].
Proof.
  rewrite df_conteo_rows. reflexivity.
Qed.

Lemma bincount_none (R : list Sku) (l : string) :
  (forall r, In r R -> Categoria_Antiguedad r <> Some l) ->
  bincount (map Categoria_Antiguedad R) l = 0%nat.
Proof.
  intros H. rewrite bincount_matching.
  fold (matching l R). now rewrite (matching_none l R H).
Qed.

Lemma In_df_conteo (R : list Sku) (l : string) (n : nat) :
  In (l, n) (df_conteo R) <->
  In l labels /\ n = List.length (matching l R).
Proof.
  rewrite df_conteo_rows. unfold rows_in_label_order.
  rewrite in_map_iff. split.
  - intros (l' & E & Hl). inversion E; subst.
    split; [exact Hl | apply bincount_matching].
  - intros (Hl & ->). exists l. split; [| exact Hl].
    f_equal. apply bincount_matching.
Qed.

Lemma sort_values_desc_length (df : list Sku) :
  List.length (sort_values_desc df) = List.length df.
Proof.
  apply Permutation_length. apply sort_perm.
Qed.

(** The chart and the detail agree: selecting a bar of height [n > 0] shows
    [n] as the SKU count and a table of [n] rows; selecting a bar of height 0
    shows the "no data" message. *)
Theorem bar_height_is_detail_size {SR : SeriesReductions} (R : list Sku)
                                  (l : string) (n : nat) :
  In (l, n) (df_conteo R) ->
  (n = 0%nat -> detail l R = no_data l) /\
  (n <> 0%nat ->
     nth_error (metrics (detail l R)) 0 = Some ("SKUs en Categoría", MInt n) /\
     exists t, tables (detail l R) = [t] /\ List.length t = n).
Proof.
  intros Hin. apply In_df_conteo in Hin as (_ & ->). split.
  - intros H0. apply detail_empty.
    destruct (matching l R); [reflexivity | discriminate].
  - intros Hn.
    assert (He : empty (matching l R) = false)
      by (destruct (matching l R); [contradiction | reflexivity]).
    destruct (projections_nonempty l R He) as (Hm & Ht & _).
    rewrite Hm, Ht. split; [reflexivity |].
    eexists. split; [reflexivity | apply sort_values_desc_length].
Qed.

Lemma bar_height_is_detail_size_witness :
  In ("+24 Meses (Crítico)", 2%nat) (df_conteo [sku_800; sku_10; sku_800]) /\
  nth_error
    (metrics (detail (SR := sequential) "+24 Meses (Crítico)"
                     [sku_800; sku_10; sku_800])) 0 =
    Some ("SKUs en Categoría", MInt 2).
Proof.
  assert (Hin : In ("+24 Meses (Crítico)", 2%nat)
                   (df_conteo [sku_800; sku_10; sku_800])).
  { vm_compute. tauto. }
  split; [exact Hin |].
  refine (proj1 (proj2 (bar_height_is_detail_size (SR := sequential)
                          _ _ _ Hin) _)).
  discriminate.
Defined.

(* ================================================================== *)
(** ** The page *)

Lemma insight_infos (c : string) : infos (insight c) = [].
Proof.
  unfold insight.
  destruct (contains "Crítico" c); [reflexivity |].
  destruct (contains "Activo" c); reflexivity.
Qed.

Lemma insight_length (c : string) : (List.length (insight c) <= 1)%nat.
Proof.
  unfold insight.
  destruct (contains "Crítico" c); [cbn; lia |].
  destruct (contains "Activo" c); cbn; lia.
Qed.

(** Whatever the event and the table, the page is the chart followed by
    exactly one of three things: the prompt to select a bar, the "no data"
    message, or a detail made of three metrics, one table and at most one
    insight.  Metrics and tables never come with a message. *)
Theorem page_shows_one_state {SR : SeriesReductions} (event : option Event)
                             (R : list Sku) :
  hd_error (report event R) = Some (st_plotly_chart (df_conteo R)) /\
  ((infos (report event R) = [msg_idle] /\
    metrics (report event R) = [] /\ tables (report event R) = [] /\
    insights (report event R) = []) \/
   (infos (report event R) = [msg_no_data] /\
    metrics (report event R) = [] /\ tables (report event R) = [] /\
    insights (report event R) = []) \/
   (infos (report event R) = [] /\
    List.length (metrics (report event R)) = 3%nat /\
    List.length (tables (report event R)) = 1%nat /\
    (List.length (insights (report event R)) <= 1)%nat)).
Proof.
  split; [reflexivity |].
  assert (Hidle : forall A B C D : Prop,
            A -> B -> C -> D -> (A /\ B /\ C /\ D)) by tauto.
  destruct event as [[[[| p ps] |]] |];
    try (left; repeat split; reflexivity).
  unfold report.
  change (infos (?w :: ?l)) with (infos l).
  cbn [infos metrics tables insights flat_map filter app].
  destruct (empty (matching (point_x p) R)) eqn:He.
  - right; left.
    assert (Hm : matching (point_x p) R = [])
      by (destruct (matching (point_x p) R); [reflexivity | discriminate]).
    rewrite (detail_empty _ _ Hm). repeat split.
  - right; right.
    destruct (projections_nonempty (point_x p) R He) as (Hm & Ht & Hi).
    unfold metrics, tables, insights in *. rewrite Hm, Ht, Hi.
    split; [| split; [reflexivity | split; [reflexivity | apply insight_length]]].
    rewrite (detail_nonempty _ _ He). unfold infos.
    rewrite !flat_map_app. fold (infos (insight (point_x p))).
    rewrite insight_infos. reflexivity.
Qed.

(* ================================================================== *)
(** ** The generated inventory *)

Lemma uint_of_string_zeros (k : nat) (s : string) (d : uint) :
  NilEmpty.uint_of_string s = Some d ->
  exists d', NilEmpty.uint_of_string (zeros k ++ s) = Some d' /\
             Nat.of_uint d' = Nat.of_uint d.
Proof.
  intros H. induction k as [| k (d' & E & Hd)]; cbn.
  - now exists d.
  - rewrite E. exists (D0 d'). split; [reflexivity | exact Hd].
Qed.

(** The number in a SKU name reads back as the row number, also past four
    digits. *)
Lemma sku_index_name (i : nat) : sku_index (sku_name i) = Some i.
Proof.
  unfold sku_name, format_04d. cbn [append sku_index].
  destruct (uint_of_string_zeros
              (4 - String.length (NilEmpty.string_of_uint (Nat.to_uint i)))
              _ _ (NilEmpty.usu (Nat.to_uint i))) as (d' & E & Hd).
  rewrite E. cbn [option_map]. rewrite Hd.
  now rewrite DecimalNat.Unsigned.of_to.
Qed.

Lemma generate_data_nth (n : nat) (draws : nat -> Draw) (i : nat) (r : Sku) :
  nth_error (generate_data n draws) i = Some r ->
  (i < n)%nat /\ r = generate_row i (draws i).
Proof.
  unfold generate_data. intros H.
  assert (Hlt : (i < n)%nat).
  { assert (Hn : nth_error (map (fun i => generate_row i (draws i)) (seq 0 n)) i
                  <> None) by congruence.
    apply nth_error_Some in Hn. now rewrite length_map, length_seq in Hn. }
  split; [exact Hlt |].
  rewrite nth_error_map, nth_error_seq in H.
  destruct (Nat.ltb_spec i n) as [_ | Hge]; [| lia].
  cbn in H. congruence.
Qed.

(** The frame has [num_skus] rows and the SKU of each row names its
    position, so no two rows share a SKU, whatever is drawn. *)
Theorem generated_skus_unique (num_skus : nat) (draws : nat -> Draw) :
  List.length (generate_data num_skus draws) = num_skus /\
  (forall i r, nth_error (generate_data num_skus draws) i = Some r ->
     sku_index (SKU r) = Some i) /\
  NoDup (map SKU (generate_data num_skus draws)).
Proof.
  split; [| split].
  - unfold generate_data. now rewrite length_map, length_seq.
  - intros i r H. apply generate_data_nth in H as (_ & ->).
    apply sku_index_name.
  - unfold generate_data. rewrite map_map. cbn [generate_row SKU].
    generalize 0%nat as start.
    induction num_skus as [| n IH]; intros start; cbn [seq map];
      constructor; [| apply IH].
    rewrite in_map_iff. intros (j & E & Hj). apply in_seq in Hj.
    assert (Some j = Some start)
      by (rewrite <- !sku_index_name; now rewrite E).
    assert (j = start) by congruence. lia.
Qed.

Lemma generated_categoria (n : nat) (draws : nat -> Draw) :
  (forall i, (i < n)%nat -> 0 <= draw_dias (draws i) < 730) ->
  forall r, In r (generate_data n draws) ->
    0 <= Dias_Ultima_Factura r /\
    exists l, In l (firstn 4 labels) /\ Categoria_Antiguedad r = Some l.
Proof.
  intros Hr r Hin. unfold generate_data in Hin.
  apply in_map_iff in Hin as (i & <- & Hi). apply in_seq in Hi.
  specialize (Hr i ltac:(lia)).
  unfold Categoria_Antiguedad; cbn [generate_row Dias_Ultima_Factura].
  fold (classify (draw_dias (draws i))).
  split; [lia |].
  destruct (classify_cases (draw_dias (draws i)))
    as [(H & _) | [(H & E) | [(H & E) | [(H & E) | [(H & E) | (H & _)]]]]];
    try (exfalso; lia); rewrite E; eexists; (split; [| reflexivity]);
    cbn; tauto.
Qed.

(** With the days drawn by [randint(0, 730)] every row of the generated
    frame is counted, so the bars add up to [num_skus], and no row reaches
    the last category: its bar is always there, with height 0. *)
Theorem generated_chart (num_skus : nat) (draws : nat -> Draw) :
  (forall i, (i < num_skus)%nat -> 0 <= draw_dias (draws i) < 730) ->
  total_count (df_conteo (generate_data num_skus draws)) = num_skus /\
  nth_error (df_conteo (generate_data num_skus draws)) 4 =
    Some ("+24 Meses (Crítico)", 0%nat).
Proof.
  intros Hr. pose proof (generated_categoria _ _ Hr) as Hcat. split.
  - rewrite total_count_classified, filter_all.
    + unfold generate_data. now rewrite length_map, length_seq.
    + intros r Hin. apply Z.leb_le. now apply Hcat.
  - rewrite df_conteo_rows. unfold rows_in_label_order, labels.
    cbn [map nth_error]. do 2 f_equal. apply bincount_none.
    intros r Hin E. destruct (Hcat r Hin) as (_ & l & Hl & E').
    rewrite E in E'. inversion E'; subst l.
    cbn in Hl. destruct Hl as [H | [H | [H | [H | []]]]]; discriminate H.
Qed.

Lemma generated_chart_witness :
  (forall i, (i < 500)%nat -> 0 <= draw_dias (sample_draws i) < 730) /\
  total_count (df_conteo (generate_data 500 sample_draws)) = 500%nat.
Proof.
  assert (Hr : forall i, (i < 500)%nat ->
                 0 <= draw_dias (sample_draws i) < 730).
  { intros i _. cbn. apply Z.mod_pos_bound. lia. }
  split; [exact Hr | exact (proj1 (generated_chart 500 sample_draws Hr))].
Defined.

(** On the generated frame the critical warning can never show: selecting
    the last bar gives the "no data" message, and no event makes the page
    render an [st.error]. *)
Theorem generated_never_critical {SR : SeriesReductions} (num_skus : nat)
                                 (draws : nat -> Draw) :
  (forall i, (i < num_skus)%nat -> 0 <= draw_dias (draws i) < 730) ->
  detail "+24 Meses (Crítico)" (generate_data num_skus draws) =
    no_data "+24 Meses (Crítico)" /\
  (forall event body,
     ~ In (st_error body) (report event (generate_data num_skus draws))).
Proof.
  intros Hr. pose proof (generated_categoria _ _ Hr) as Hcat.
  set (df := generate_data num_skus draws) in *.
  assert (Hfour : forall c r, In r (matching c df) -> In c (firstn 4 labels)).
  { intros c r Hin. apply filter_In in Hin as (Hin & Hc).
    destruct (Hcat r Hin) as (_ & l & Hl & E). rewrite E in Hc.
    cbn in Hc. apply String.eqb_eq in Hc. now subst. }
  split.
  - apply detail_empty. destruct (matching _ df) as [| r rest] eqn:Em;
      [reflexivity |].
    specialize (Hfour "+24 Meses (Crítico)" r). rewrite Em in Hfour.
    specialize (Hfour (or_introl eq_refl)). cbn in Hfour.
    destruct Hfour as [H | [H | [H | [H | []]]]]; discriminate H.
  - intros event body Hin.
    assert (Hdet : forall c, ~ In (st_error body) (detail c df)).
    { intros c Hc. destruct (matching c df) as [| r rest] eqn:Em.
      - rewrite (detail_empty c df Em) in Hc. cbn in Hc.
        destruct Hc as [H | [H | [H | []]]]; discriminate H.
      - assert (He : empty (matching c df) = false) by now rewrite Em.
        rewrite (detail_nonempty c df He) in Hc.
        specialize (Hfour c r). rewrite Em in Hfour.
        specialize (Hfour (or_introl eq_refl)).
        rewrite !in_app_iff in Hc. cbn in Hfour.
        destruct Hfour as [<- | [<- | [<- | [<- | []]]]]; cbn in Hc;
          repeat (destruct Hc as [Hc | Hc]; try discriminate Hc);
          try contradiction. }
    destruct event as [[[[| p ps] |]] |]; cbn in Hin;
      try (destruct Hin as [H | [H | []]]; discriminate H).
    destruct Hin as [H | Hin]; [discriminate H |].
    exact (Hdet _ Hin).
Qed.

Lemma generated_never_critical_witness :
  (forall i, (i < 500)%nat -> 0 <= draw_dias (sample_draws i) < 730) /\
  detail (SR := sequential) "+24 Meses (Crítico)"
         (generate_data 500 sample_draws) = no_data "+24 Meses (Crítico)".
Proof.
  assert (Hr : forall i, (i < 500)%nat ->
                 0 <= draw_dias (sample_draws i) < 730).
  { intros i _. cbn. apply Z.mod_pos_bound. lia. }
  split; [exact Hr |].
  exact (proj1 (generated_never_critical (SR := sequential) 500
                  sample_draws Hr)).
Defined.

(* ================================================================== *)
(** ** The printed amounts *)

Lemma append_assoc3 (a b c : string) : (a ++ b) ++ c = a ++ b ++ c.
Proof.
  induction a as [| x a IH]; cbn; [reflexivity | now rewrite IH].
Qed.

Lemma digit_is_digit (n : Z) :
  0 <= n < 10 ->
  exists a, digit n = String a EmptyString /\ is_digit a = true.
Proof.
  intros Hn. unfold digit. eexists. split; [reflexivity |].
  unfold is_digit. rewrite nat_ascii_embedding by lia.
  apply andb_true_intro. split; apply Nat.leb_le; lia.
Qed.

Lemma pad2_digits (k : Z) :
  0 <= k < 100 ->
  exists a b, pad2 k = String a (String b EmptyString) /\
              is_digit a = true /\ is_digit b = true.
Proof.
  intros Hk. unfold pad2.
  destruct (digit_is_digit (k / 10)) as (a & Ea & Ha).
  { split; [apply Z.div_pos; lia | apply Z.div_lt_upper_bound; lia]. }
  destruct (digit_is_digit (k mod 10)) as (b & Eb & Hb).
  { apply Z.mod_pos_bound. lia. }
  exists a, b. rewrite Ea, Eb. repeat split; assumption.
Qed.

Lemma format_2f_two_decimals (comma : bool) (v : float) :
  finite v = true -> two_decimals (format_2f comma v).
Proof.
  unfold finite, format_2f, two_decimals.
  destruct (Prim2SF v) as [s | s | | s m e]; try discriminate; intros _.
  - exists (sign s ++ "0"), "0"%char, "0"%char.
    rewrite append_assoc3. repeat split.
  - destruct (pad2_digits (hundredths m e mod 100)) as (a & b & E & Ha & Hb).
    { apply Z.mod_pos_bound. lia. }
    rewrite E.
    exists (sign s ++ (if comma then grouped (hundredths m e / 100)
                       else digits (hundredths m e / 100))), a, b.
    rewrite append_assoc3. repeat split; assumption.
Qed.

(** Whenever a detail is shown and the sum and the mean are finite, the
    investment reads as a dollar sign and an amount with exactly two
    decimals, and the margin as an amount with exactly two decimals and a
    percent sign. *)
Theorem metrics_show_two_decimals {SR : SeriesReductions} (c : string)
                                  (R : list Sku) :
  (exists r, In r R /\ Categoria_Antiguedad r = Some c) ->
  finite (series_sum
            (map (fun r => PrimFloat.mul (of_int (Existencia_Actual r))
                                         (Costo_Unitario r))
                 (matching c R))) = true ->
  finite (series_mean (map Margen_Utilidad_Porcentaje (matching c R))) = true ->
  exists (n : nat) (money margin : string),
    metrics (detail c R) =
      [ ("SKUs en Categoría", MInt n);
        ("Inversión Total", MStr ("$" ++ money));
        ("Margen Promedio", MStr (margin ++ "%")) ] /\
    two_decimals money /\ two_decimals margin.
Proof.
  intros H Hsum Hmean. apply matching_some in H as (H & _).
  rewrite (proj1 (projections_nonempty c R H)).
  do 3 eexists. split; [reflexivity |].
  split; apply format_2f_two_decimals; assumption.
Qed.

Lemma metrics_show_two_decimals_witness :
  (exists r, In r [sku_10; sku_800] /\
             Categoria_Antiguedad r = Some "0-3 Meses (Activo)") /\
  exists (n : nat) (money margin : string),
    metrics (detail (SR := sequential) "0-3 Meses (Activo)"
                    [sku_10; sku_800]) =
      [ ("SKUs en Categoría", MInt n);
        ("Inversión Total", MStr ("$" ++ money));
        ("Margen Promedio", MStr (margin ++ "%")) ] /\
    two_decimals money /\ two_decimals margin.
Proof.
  assert (H : exists r, In r [sku_10; sku_800] /\
                        Categoria_Antiguedad r = Some "0-3 Meses (Activo)").
  { exists sku_10. split; [cbn; tauto | reflexivity]. }
  split; [exact H |].
  apply (metrics_show_two_decimals (SR := sequential) _ _ H);
    vm_compute; reflexivity.
Defined.
